(** * hdf_to_tif: a shallow embedding of [hdf_to_tif.py]

    The script drives three external tools (a stat tool, a conversion tool
    and a reprojection tool) and has four pieces of logic of its own: the
    configuration formatter [mk_conf_str], the header parser inside [stat],
    the configuration assembly inside [hdf_to_tif] and the argument checks of
    [main].  Each is translated below from the Python source.

    Python [str] values are modelled as [string] (sequences of 8-bit
    characters); [lower] and [upper] act on the ASCII letters and leave every
    other character alone, which is what [str.lower] and [str.upper] do on
    ASCII text. *)

From Stdlib Require Import String Ascii List ZArith Bool Lia.
From stdpp Require Import base option list gmap strings.

Local Open Scope string_scope.
Local Open Scope list_scope.

(** ** Python string methods used by the script *)

Module Py.

Definition is_upper (c : ascii) : bool :=
  let n := N_of_ascii c in (N.leb 65 n && N.leb n 90)%bool.

Definition is_lower (c : ascii) : bool :=
  let n := N_of_ascii c in (N.leb 97 n && N.leb n 122)%bool.

Definition lower_char (c : ascii) : ascii :=
  if is_upper c then ascii_of_N (N_of_ascii c + 32) else c.

Definition upper_char (c : ascii) : ascii :=
  if is_lower c then ascii_of_N (N_of_ascii c - 32) else c.

Fixpoint map_chars (f : ascii -> ascii) (s : string) : string :=
  match s with
  | EmptyString => EmptyString
  | String c s' => String (f c) (map_chars f s')
  end.

(** [s.lower()] and [s.upper()] *)
Definition lower : string -> string := map_chars lower_char.
Definition upper : string -> string := map_chars upper_char.

(** [c in chars] for a one-character [c] *)
Fixpoint mem (c : ascii) (chars : string) : bool :=
  match chars with
  | EmptyString => false
  | String d chars' => (Ascii.eqb c d || mem c chars')%bool
  end.

Definition is_empty (s : string) : bool :=
  match s with EmptyString => true | String _ _ => false end.

(** [s.lstrip(chars)], [s.rstrip(chars)] and [s.strip(chars)] *)
Fixpoint lstrip (chars s : string) : string :=
  match s with
  | EmptyString => EmptyString
  | String c s' => if mem c chars then lstrip chars s' else s
  end.

Fixpoint rstrip (chars s : string) : string :=
  match s with
  | EmptyString => EmptyString
  | String c s' =>
      let r := rstrip chars s' in
      if (is_empty r && mem c chars)%bool then EmptyString else String c r
  end.

Definition strip (chars s : string) : string := rstrip chars (lstrip chars s).

(** [s.replace(old, new)]: occurrences of [old] are found left to right
    and do not overlap.  [skip] counts the characters of the occurrence
    just replaced that are still to be passed over. *)
Fixpoint replace_from (old new : string) (skip : nat) (s : string) : string :=
  match s with
  | EmptyString => EmptyString
  | String c s' =>
      match skip with
      | S k => replace_from old new k s'
      | O =>
          if String.prefix old s
          then new +:+ replace_from old new (String.length old - 1) s'
          else String c (replace_from old new 0 s')
      end
  end.

Fixpoint intersperse (new s : string) : string :=
  match s with
  | EmptyString => EmptyString
  | String c s' => String c (new +:+ intersperse new s')
  end.

Definition replace (old new s : string) : string :=
  if is_empty old then new +:+ intersperse new s
  else replace_from old new 0 s.

(** [s.split(sep)] for a separator of one character, the only kind the
    script uses.  The result is never empty. *)
Fixpoint split (sep : ascii) (s : string) : list string :=
  match s with
  | EmptyString => [EmptyString]
  | String c s' =>
      if Ascii.eqb c sep then EmptyString :: split sep s'
      else match split sep s' with
           | [] => [String c EmptyString]
           | w :: ws => String c w :: ws
           end
  end.

(** [sep.join(parts)] *)
Fixpoint join (sep : string) (parts : list string) : string :=
  match parts with
  | [] => EmptyString
  | [p] => p
  | p :: ps => p +:+ sep +:+ join sep ps
  end.

(** Slices: [take k s] is [s[:k]] and [drop k s] is [s[k:]] for [k >= 0]. *)
Fixpoint take (k : nat) (s : string) : string :=
  match k, s with
  | S k', String c s' => String c (take k' s')
  | _, _ => EmptyString
  end.

Fixpoint drop (k : nat) (s : string) : string :=
  match k, s with
  | S k', String _ s' => drop k' s'
  | _, _ => s
  end.

(** [s[-k:]] and [s[:-k]] for [k > 0]: a negative index counts from the
    end and is clipped at the start of the string. *)
Definition last_chars (k : nat) (s : string) : string :=
  drop (String.length s - k) s.

Definition but_last_chars (k : nat) (s : string) : string :=
  take (String.length s - k) s.

End Py.

(** Characters the script names. *)
Definition NL : ascii := ascii_of_nat 10.
Definition TAB : ascii := ascii_of_nat 9.
Definition BACKSLASH : ascii := ascii_of_nat 92.

Definition str1 (c : ascii) : string := String c EmptyString.

(** ** Exceptions and results *)

Inductive exn : Type :=
| SystemExit (code : Z)
| CalledProcessError (cmd : list string) (status : Z)
| KeyError (key : string)
| IndexError
| FileNotFoundError (path : string).

Inductive result (A : Type) : Type :=
| Ok (a : A)
| Raise (e : exn).
Arguments Ok {A} a.
Arguments Raise {A} e.

(** ** The header parser of [stat] *)

(** [f.read().replace("\\\n", "").replace("\t", " ")] *)
Definition normalize (text : string) : string :=
  Py.replace (str1 TAB) " " (Py.replace (String BACKSLASH (str1 NL)) "" text).

(** [lines = text.split("\n")] followed by
    [[l.strip(" ") for l in lines if l.strip(" ")]] *)
Definition header_lines (text : string) : list string :=
  let lines := Py.split NL text in
  List.map (Py.strip " ")
    (List.filter (fun l => negb (Py.is_empty (Py.strip " " l))) lines).

(** [{l.split("=")[0].lower(): l.split("=")[1] for l in lines}]: the entries
    are stored in line order, so a later line overwrites an earlier one with
    the same key; a line without ['='] has no element 1. *)
Fixpoint mk_params (lines : list string) (acc : gmap string string)
  : result (gmap string string) :=
  match lines with
  | [] => Ok acc
  | l :: rest =>
      match Py.split "=" l !! 0%nat, Py.split "=" l !! 1%nat with
      | Some k, Some v => mk_params rest (<[Py.lower k := v]> acc)
      | _, _ => Raise IndexError
      end
  end.

Definition parse_header (text : string) : result (gmap string string) :=
  mk_params (header_lines (normalize text)) ∅.

(** ** Constants and tables of the script *)

Definition CVT_CMD : string := "/home/erik/bin/heg/bin/resample".
Definition CVT_LOG_FILENAME : string := "resample.log".
Definition STAT_CMD : string := "/home/erik/bin/heg/bin/hegtool".
Definition STAT_OUT_FILENAME : string := "HegHdr.hdr".
Definition STAT_LOG_FILENAME : string := "hegtool.log".
Definition WARP_CMD : string := "/usr/bin/gdalwarp".

Definition ENV : list (string * string) :=
  [ ("HEGUSER", "BOB");
    ("MRTDATADIR", "/home/erik/bin/heg/data");
    ("PGSHOME", "/home/erik/bin/heg/TOOLKIT_MTD") ].

(** An ordered dictionary with string keys and values: the entries in
    insertion order.  [dict_set] is [d[k] = v]: an existing key keeps its
    place, a new key goes to the end. *)
Definition odict : Type := list (string * string).

Fixpoint dict_set (k v : string) (d : odict) : odict :=
  match d with
  | [] => [(k, v)]
  | (k', v') :: d' =>
      if String.eqb k k' then (k', v) :: d' else (k', v') :: dict_set k v d'
  end.

Fixpoint dict_get (k : string) (d : odict) : option string :=
  match d with
  | [] => None
  | (k', v') :: d' => if String.eqb k k' then Some v' else dict_get k d'
  end.

Definition DEF_CONF : odict :=
  [ ("input_filename", "");
    ("object_name", "");
    ("field_name", "");
    ("band_number", "1");
    ("spatial_subset_ul_corner", "");
    ("spatial_subset_lr_corner", "");
    ("resampling_type", "BI");
    ("output_projection_type", "GEO");
    ("ellipsoid_code", "WGS84");
    ("output_projection_parameters",
      "( 0.0 0.0 0.0 0.0 0.0 0.0 0.0 0.0 0.0 0.0 0.0 0.0 0.0 0.0 0.0  )");
    ("output_filename", "");
    ("output_type", "GEO") ].

Definition BANDS : gmap string (gmap string string) :=
  list_to_map
    [ ("MOD13Q1",
        list_to_map
          [ ("ndvi", "250m 16 days NDVI");
            ("evi", "250m 16 days EVI");
            ("vi-quality", "250m 16 days VI Quality");
            ("red", "250m 16 days red reflectance");
            ("nir", "250m 16 days NIR reflectance");
            ("blue", "250m 16 days blue reflectance");
            ("mir", "250m 16 days MIR reflectance");
            ("day", "250m 16 days composite day of the year");
            ("pix-rel", "250m 16 days pixel reliability") ]);
      ("MYD13Q1",
        list_to_map
          [ ("ndvi", "250m 16 days NDVI");
            ("evi", "250m 16 days EVI");
            ("vi-quality", "250m 16 days VI Quality");
            ("red", "250m 16 days red reflectance");
            ("nir", "250m 16 days NIR reflectance");
            ("blue", "250m 16 days blue reflectance");
            ("mir", "250m 16 days MIR reflectance");
            ("day", "250m 16 days composite day of the year");
            ("pix-rel", "250m 16 days pixel reliability") ]) ].

(** ** The configuration formatter *)

(** ["{} = {}".format(k.upper(), v)] *)
Definition conf_entry (kv : string * string) : string :=
  Py.upper (fst kv) +:+ " = " +:+ snd kv.

Definition mk_conf_str (conf : odict) : string :=
  let conf_str := Py.join (str1 NL) (List.map conf_entry conf) in
  Py.join (str1 NL) [ ""; "NUM_RUNS = 1"; ""; "BEGIN"; conf_str; "END"; "" ].

(** ** Configuration assembly (the "setting up configuration" block of
    [hdf_to_tif]) *)

(** [params[key]] *)
Definition getitem (params : gmap string string) (key : string) : result string :=
  match params !! key with
  | Some v => Ok v
  | None => Raise (KeyError key)
  end.

(** [BANDS.get(product, {}).get(band, band)] *)
Definition field_name_of (product band : string) : string :=
  default band (default ∅ (BANDS !! product) !! band).

Definition assemble_conf (params : gmap string string)
    (inp_fp out_fp band : string) : result odict :=
  let conf := DEF_CONF in
  let conf := dict_set "input_filename" inp_fp conf in
  let conf := dict_set "output_filename" out_fp conf in
  match getitem params "grid_ul_corner_latlon" with
  | Raise e => Raise e
  | Ok ul =>
  let conf := dict_set "spatial_subset_ul_corner" ("( " +:+ ul +:+ " )") conf in
  match getitem params "grid_lr_corner_latlon" with
  | Raise e => Raise e
  | Ok lr =>
  let conf := dict_set "spatial_subset_lr_corner" ("( " +:+ lr +:+ " )") conf in
  match getitem params "grid_names" with
  | Raise e => Raise e
  | Ok names =>
  let conf := dict_set "object_name" (Py.replace "," "" names +:+ "|") conf in
  match getitem params "input_shortname" with
  | Raise e => Raise e
  | Ok product =>
  let conf := dict_set "field_name" (field_name_of product band) conf in
  Ok conf
  end end end end.

(** ** Effects: the trace of what the process does *)

Inductive event : Type :=
| EnvUpdate (vars : list (string * string))
| Run (cmd : list string) (inherit_stdout : bool)
| Print (line : string)
| DescribeArgs (title : string)
| WriteFile (path content : string)
| Remove (path : string)
| Move (src dst : string).

(** What the script observes of its surroundings: the return code of a
    child process started with a given command line, the answers of
    [os.path.isfile], [open(...).read()] and [glob.glob], and the names
    handed out by [tempfile.mktemp].  The answers are fixed per path and per
    command line: what the tools write and what the script removes is kept
    in the trace, not fed back into later answers. *)
Record world : Type := {
  returncode : list string -> Z;
  isfile : string -> bool;
  read_file : string -> option string;
  glob : string -> list string;
  mktemp_name : nat -> string
}.

Record state : Type := {
  trace : list event;
  temps : nat
}.

Definition init : state := {| trace := []; temps := 0 |}.

Definition M (A : Type) : Type := state -> result A * state.

Definition ret {A} (a : A) : M A := fun st => (Ok a, st).
Definition raise {A} (e : exn) : M A := fun st => (Raise e, st).

Definition bind {A B} (c : M A) (k : A -> M B) : M B :=
  fun st =>
    match c st with
    | (Ok a, st') => k a st'
    | (Raise e, st') => (Raise e, st')
    end.

Notation "x <- c ;; k" := (bind c (fun x => k))
  (at level 100, c at next level, right associativity).
Notation "c ;;; k" := (bind c (fun _ => k))
  (at level 100, right associativity).

Definition lift {A} (r : result A) : M A := fun st => (r, st).

Definition emit (e : event) : M unit :=
  fun st => (Ok tt, {| trace := trace st ++ [e]; temps := temps st |}).

Fixpoint for_each {A} (xs : list A) (body : A -> M unit) : M unit :=
  match xs with
  | [] => ret tt
  | x :: xs' => body x ;;; for_each xs' body
  end.

(** ** The pipeline *)

Section Pipeline.

Variable w : world.

(** [sp.run(cmd, stdout=None if verbose else sp.PIPE, check=True)]: the
    child inherits the standard output when [verbose]; a return code other
    than zero raises [CalledProcessError]. *)
Definition sp_run (cmd : list string) (verbose : bool) : M unit :=
  emit (Run cmd verbose) ;;;
  if Z.eqb (returncode w cmd) 0 then ret tt
  else raise (CalledProcessError cmd (returncode w cmd)).

Definition run_convert_cmd (params_fp : string) (verbose : bool) : M unit :=
  sp_run [CVT_CMD; "-p"; params_fp] verbose.

Definition run_stat_cmd (inp_fp : string) (verbose : bool) : M unit :=
  sp_run [STAT_CMD; "-h"; inp_fp] verbose.

Definition run_warp_cmd (inp_fp out_fp proj : string) (verbose : bool) : M unit :=
  sp_run [WARP_CMD; inp_fp; out_fp; "-t_srs"; Py.upper proj] verbose.

(** [tempfile.mktemp()] *)
Definition mktemp : M string :=
  fun st => (Ok (mktemp_name w (temps st)),
             {| trace := trace st; temps := S (temps st) |}).

(** [if os.path.isfile(fp): os.remove(fp)] *)
Definition remove_if_file (fp : string) : M unit :=
  if isfile w fp then emit (Remove fp) else ret tt.

(** [with open(fp, "r") as f: f.read()] *)
Definition open_read (fp : string) : M string :=
  match read_file w fp with
  | Some text => ret text
  | None => raise (FileNotFoundError fp)
  end.

(** [print(mk_conf_str(conf), file=f)] writes the text and a newline. *)
Definition mk_conf_file (conf : odict) : M string :=
  tmp_fp <- mktemp ;;
  emit (WriteFile tmp_fp (mk_conf_str conf +:+ str1 NL)) ;;;
  ret tmp_fp.

(** [print("error:", msg)] then [exit(code)] *)
Definition error {A} (msg : string) (code : Z) : M A :=
  emit (Print ("error: " +:+ msg)) ;;;
  raise (SystemExit code).

Definition stat (inp_fp : string) (verbose : bool) : M (gmap string string) :=
  run_stat_cmd inp_fp verbose ;;;
  remove_if_file STAT_LOG_FILENAME ;;;
  text <- open_read STAT_OUT_FILENAME ;;
  let lines := header_lines (normalize text) in
  emit (Remove STAT_OUT_FILENAME) ;;;
  lift (mk_params lines ∅).

Definition hdf_to_tif (inp_fp out_fp band proj : string) (verbose : bool) : M unit :=
  emit (EnvUpdate ENV) ;;;
  params <- stat inp_fp verbose ;;
  conf <- lift (assemble_conf params inp_fp out_fp band) ;;
  conf_fp <- mk_conf_file conf ;;
  run_convert_cmd conf_fp verbose ;;;
  for_each
    ([CVT_LOG_FILENAME; conf_fp; out_fp +:+ ".met"]
       ++ glob w "filetable.temp_*" ++ glob w "GetAttrtemp_*")
    remove_if_file ;;;
  if negb (Py.is_empty proj) then
    tmp <- mktemp ;;
    run_warp_cmd out_fp tmp proj verbose ;;;
    emit (Move tmp out_fp)
  else ret tt.

(** The command line after [oarg.parse()]: for each option whether it was
    found and its value (the declared default when it was not). *)
Record args : Type := {
  inp_found : bool;  inp_val : string;
  band_found : bool; band_val : string;
  out_found : bool;  out_val : string;
  silence_val : bool;
  proj_val : string;
  hlp_val : bool
}.

(** The default output path of [main]. *)
Definition default_out_fp (inp : string) : string :=
  if negb (String.eqb (Py.lower (Py.last_chars 4 inp)) ".hdf")
  then inp +:+ ".tif"
  else Py.but_last_chars 4 inp +:+ ".tif".

Definition main (a : args) : M unit :=
  if hlp_val a then emit (DescribeArgs "options:")
  else
    (if negb (inp_found a)
     then error "must provide input filepath (use --help)" 1
     else ret tt) ;;;
    (if negb (band_found a)
     then error "must provide band (use --help)" 1
     else ret tt) ;;;
    let out_fp :=
      if negb (out_found a) then default_out_fp (inp_val a) else out_val a in
    hdf_to_tif (inp_val a) out_fp (band_val a) (proj_val a)
      (negb (silence_val a)).

End Pipeline.

(** The status the process ends with: 0 when [main] returns, the code of
    [exit(code)], and 1 when an exception reaches the top level (the
    interpreter then writes the traceback on the standard error). *)
Definition exit_status {A} (r : result A) : Z :=
  match r with
  | Ok _ => 0
  | Raise (SystemExit code) => code
  | Raise _ => 1
  end.

(** The command lines of the child processes started, in order. *)
Definition runs (tr : list event) : list (list string) :=
  omap (fun e => match e with Run cmd _ => Some cmd | _ => None end) tr.

(** The lines the script itself prints on the standard output. *)
Definition printed (tr : list event) : list string :=
  omap (fun e => match e with Print l => Some l | _ => None end) tr.

Definition run_main (w : world) (a : args) : result unit * list event :=
  let '(r, st) := main w a init in (r, trace st).

(** ** Notions the properties are stated with *)

(** The lines of a text. *)
Definition text_lines (text : string) : list string := Py.split NL text.

Definition no_newline (s : string) : Prop := Py.mem NL s = false.

(** The output has a [BEGIN] line, then one line per entry of the mapping,
    in order, then an [END] line, and a [NUM_RUNS = 1] line before all of
    them. *)
Definition conf_block (conf : odict) (out : string) : Prop :=
  exists pre post,
    text_lines out = pre ++ ["BEGIN"] ++ List.map conf_entry conf ++ ["END"] ++ post
    /\ In "NUM_RUNS = 1" pre.

(** A string with every occurrence of one character left out. *)
Fixpoint without_char (c : ascii) (s : string) : string :=
  match s with
  | EmptyString => EmptyString
  | String d s' =>
      if Ascii.eqb d c then without_char c s' else String d (without_char c s')
  end.

(** The entry of the product band table for a product and an alias. *)
Definition table_entry (product band : string) : option string :=
  BANDS !! product ≫= fun table => table !! band.


(** Events other than starting a child and printing. *)
Definition quiet (e : event) : bool :=
  match e with
  | Run _ _ | Print _ => false
  | _ => true
  end.

(** The output path [main] hands to [hdf_to_tif]. *)
Definition out_path (a : args) : string :=
  if negb (out_found a) then default_out_fp (inp_val a) else out_val a.

Section Safety.

Variable w : world.

(** A computation that starts child processes only through [sp_run] and
    prints nothing: whatever it adds to the trace holds no [Print], and a
    child that returned a code other than zero is the last thing in it,
    with the matching [CalledProcessError] as the result. *)
Definition aborts_on_failure {A} (c : M A) : Prop :=
  forall st r st', c st = (r, st') ->
    exists new,
      trace st' = trace st ++ new /\
      printed new = [] /\
      forall cmd v, In (Run cmd v) new -> returncode w cmd <> 0%Z ->
        r = Raise (CalledProcessError cmd (returncode w cmd)) /\
        exists before, new = before ++ [Run cmd v].

End Safety.

(** ** Sample inputs *)

(** Header texts: two records with spaces around the equals sign, the same
    without the spaces, a record whose value holds an equals sign, and a
    record continued over a backslash and a newline. *)
Definition header_spaced : string :=
  "A = 1" +:+ str1 NL +:+ "B = 2" +:+ str1 NL.
Definition header_tight : string :=
  "A=1" +:+ str1 NL +:+ "B=2" +:+ str1 NL.
Definition header_two_eq : string := "A = B=C".
Definition header_continued : string :=
  "A = fo" +:+ String BACKSLASH (str1 NL) +:+ "o" +:+ str1 NL +:+ "B = 2".

(** A header as the stat tool writes it for a MOD13Q1 granule. *)
Definition header_mod13q1 : string :=
  "INPUT_SHORTNAME=MOD13Q1" +:+ str1 NL +:+
  "GRID_NAMES=MODIS_Grid_16DAY_250m_500m_VI," +:+ str1 NL +:+
  "GRID_UL_CORNER_LATLON=40.0 -117.5" +:+ str1 NL +:+
  "GRID_LR_CORNER_LATLON=30.0 -92.4" +:+ str1 NL.

Definition params_mod13q1 : gmap string string :=
  <["grid_lr_corner_latlon" := "30.0 -92.4"]>
    (<["grid_ul_corner_latlon" := "40.0 -117.5"]>
      (<["grid_names" := "MODIS_Grid_16DAY_250m_500m_VI,"]>
        (<["input_shortname" := "MOD13Q1"]> ∅))).

(** A mapping with one key whose value spans two lines. *)
Definition conf_two_lines : odict :=
  [("a", "x" +:+ str1 NL +:+ "B = y")].

(** Surroundings in which every tool succeeds and the stat tool leaves
    [header_mod13q1] behind, and the same with a stat tool that returns 1. *)
Definition world_ok : world :=
  {| returncode := fun _ => 0%Z;
     isfile := fun _ => true;
     read_file := fun _ => Some header_mod13q1;
     glob := fun _ => [];
     mktemp_name := fun k => match k with O => "/tmp/tmp0" | _ => "/tmp/tmp1" end |}.

Definition world_stat_fails : world :=
  {| returncode := fun cmd =>
       match cmd with
       | tool :: _ => if String.eqb tool STAT_CMD then 1%Z else 0%Z
       | [] => 0%Z
       end;
     isfile := isfile world_ok;
     read_file := read_file world_ok;
     glob := glob world_ok;
     mktemp_name := mktemp_name world_ok |}.

(** [-i scene.hdf -b evi -p epsg:4326], the same without the band, and
    [-h] alone. *)
Definition args_full : args :=
  {| inp_found := true; inp_val := "scene.hdf";
     band_found := true; band_val := "evi";
     out_found := false; out_val := "";
     silence_val := false; proj_val := "epsg:4326"; hlp_val := false |}.

Definition args_no_band : args :=
  {| inp_found := true; inp_val := "scene.hdf";
     band_found := false; band_val := "";
     out_found := false; out_val := "";
     silence_val := false; proj_val := ""; hlp_val := false |}.

Definition args_help_only : args :=
  {| inp_found := false; inp_val := "";
     band_found := false; band_val := "";
     out_found := false; out_val := "";
     silence_val := false; proj_val := ""; hlp_val := true |}.

(** ** The pipeline written out *)






(** ** Lemmas on the string methods *)

Lemma append_cons (c : ascii) (a b : string) :
  String c a +:+ b = String c (a +:+ b).
Proof. reflexivity. Qed.

Lemma append_nil_l (a : string) : "" +:+ a = a.
Proof. reflexivity. Qed.

Ltac str_simpl := rewrite ?append_cons, ?append_nil_l.

Lemma append_assoc (a b c : string) : (a +:+ b) +:+ c = a +:+ (b +:+ c).
Proof. induction a as [|x a IH]; str_simpl; [reflexivity | now rewrite IH]. Qed.

Lemma append_empty_r (a : string) : a +:+ "" = a.
Proof. induction a as [|x a IH]; str_simpl; [reflexivity | now rewrite IH]. Qed.

Lemma length_append (a b : string) :
  String.length (a +:+ b) = String.length a + String.length b.
Proof.
  induction a as [|x a IH]; str_simpl; simpl; [reflexivity | now rewrite IH].
Qed.

Lemma mem_append (c : ascii) (a b : string) :
  Py.mem c (a +:+ b) = (Py.mem c a || Py.mem c b)%bool.
Proof.
  induction a as [|x a IH]; str_simpl; simpl; [reflexivity |].
  rewrite IH. now rewrite orb_assoc.
Qed.

Lemma upper_char_newline (c : ascii) : Py.upper_char c = NL -> c = NL.
Proof.
  destruct c as [[] [] [] [] [] [] [] []]; vm_compute; intros H;
    first [reflexivity | discriminate H].
Qed.

Lemma mem_newline_upper (s : string) : Py.mem NL (Py.upper s) = Py.mem NL s.
Proof.
  induction s as [|c s IH]; [reflexivity |].
  unfold Py.upper in *. cbn [Py.map_chars Py.mem]. rewrite IH. f_equal.
  destruct (Ascii.eqb NL c) eqn:E.
  - apply Ascii.eqb_eq in E. subst c. reflexivity.
  - apply Ascii.eqb_neq. intros H. apply Ascii.eqb_neq in E. apply E.
    symmetry. apply upper_char_newline. now symmetry.
Qed.


Lemma split_not_nil (sep : ascii) (s : string) : Py.split sep s <> [].
Proof.
  induction s as [|c s IH]; simpl; [discriminate |].
  destruct (Ascii.eqb c sep); [discriminate |].
  destruct (Py.split sep s); discriminate.
Qed.

(** A separator right after a piece that has none cuts the piece off. *)
Lemma split_append_sep (sep : ascii) (a b : string) :
  Py.mem sep a = false ->
  Py.split sep (a +:+ String sep b) = a :: Py.split sep b.
Proof.
  induction a as [|c a IH]; str_simpl; simpl; intros H.
  - now rewrite Ascii.eqb_refl.
  - apply orb_false_iff in H as [Hc Ha].
    rewrite Ascii.eqb_sym in Hc. rewrite Hc, (IH Ha). reflexivity.
Qed.

Lemma split_no_sep (sep : ascii) (a : string) :
  Py.mem sep a = false -> Py.split sep a = [a].
Proof.
  induction a as [|c a IH]; simpl; intros H; [reflexivity |].
  apply orb_false_iff in H as [Hc Ha].
  rewrite Ascii.eqb_sym in Hc. rewrite Hc, (IH Ha). reflexivity.
Qed.

(** Splitting undoes joining when no part holds the separator. *)
Lemma split_join_append (sep : ascii) (parts : list string) (rest : string) :
  parts <> [] ->
  Forall (fun p => Py.mem sep p = false) parts ->
  Py.split sep (Py.join (str1 sep) parts +:+ String sep rest)
  = parts ++ Py.split sep rest.
Proof.
  induction parts as [|p ps IH]; intros Hne Hall; [congruence |].
  inversion Hall as [|? ? Hp Hps]; subst.
  destruct ps as [|q ps].
  - simpl. now apply split_append_sep.
  - change (Py.join (str1 sep) (p :: q :: ps))
      with (p +:+ str1 sep +:+ Py.join (str1 sep) (q :: ps)).
    rewrite !append_assoc. unfold str1 at 1. str_simpl.
    rewrite split_append_sep by assumption.
    simpl app. f_equal. apply IH; [discriminate | assumption].
Qed.

Lemma take_drop (k : nat) (s : string) : Py.take k s +:+ Py.drop k s = s.
Proof.
  revert s. induction k as [|k IH]; intros [|c s]; simpl; str_simpl;
    try reflexivity.
  now rewrite IH.
Qed.


Lemma drop_append (a b : string) : Py.drop (String.length a) (a +:+ b) = b.
Proof.
  induction a as [|c a IH]; str_simpl; simpl; [now destruct b | exact IH].
Qed.

Lemma last_chars_append (stem ext : string) :
  Py.last_chars (String.length ext) (stem +:+ ext) = ext.
Proof.
  unfold Py.last_chars. rewrite length_append.
  replace (String.length stem + String.length ext - String.length ext)
    with (String.length stem) by lia.
  apply drop_append.
Qed.


(** Replacing a one-character string by the empty string leaves the
    character out everywhere. *)
Lemma replace_char_empty (c : ascii) (s : string) :
  Py.replace (str1 c) "" s = without_char c s.
Proof.
  unfold Py.replace. simpl Py.is_empty. cbv iota.
  induction s as [|d s IH]; [reflexivity |].
  simpl. destruct (Ascii.ascii_dec c d) as [->|Hne].
  - rewrite Ascii.eqb_refl. str_simpl.
    replace (String.prefix "" s) with true by (now destruct s). exact IH.
  - assert (Ascii.eqb d c = false) as ->
      by (apply Ascii.eqb_neq; congruence).
    now rewrite IH.
Qed.

(** ** The header parser *)

(** C1. On the text [A = 1] / [B = 2] the parser lower-cases the keys and
    keeps the space on either side of the equals sign: the mapping is
    [{"a ": " 1", "b ": " 2"}].  Only whole lines are trimmed.  On the same
    records written without spaces the mapping is [{"a": "1", "b": "2"}]. *)
Theorem parse_header_spaced :
  parse_header header_spaced = Ok (<["a " := " 1"]> (<["b " := " 2"]> ∅)) /\
  parse_header header_tight = Ok (<["a" := "1"]> (<["b" := "2"]> ∅)).
Proof. split; vm_compute; reflexivity. Qed.

(** The mapping of C1 as the specification words it is not what the parser
    returns: the key ["a"] is absent from the result. *)
Lemma parse_header_spaced_not_trimmed :
  parse_header header_spaced <> Ok (<["a" := "1"]> (<["b" := "2"]> ∅)).
Proof.
  intros H.
  apply (f_equal (fun r => match r with
                           | Ok m => m !! "a"
                           | Raise _ => None
                           end)) in H.
  vm_compute in H. discriminate H.
Qed.

(** C3. A record whose value holds an equals sign loses everything from the
    second equals sign on: [A = B=C] gives the value [" B"], and [A=B=C]
    gives ["B"], where splitting on the first equals sign only would give
    [" B=C"] and ["B=C"]. *)
Theorem parse_header_second_eq_dropped :
  parse_header header_two_eq = Ok {["a " := " B"]} /\
  parse_header "A=B=C" = Ok {["a" := "B"]} /\
  Py.split "=" header_two_eq = ["A "; " B"; "C"].
Proof. repeat split; vm_compute; reflexivity. Qed.

(** C8. The backslash and the newline inside the first value are taken out
    before the text is cut into lines, so the two pieces of the value are
    joined; the spaces next to the equals signs stay:
    [{"a ": " foo", "b ": " 2"}]. *)
Theorem parse_header_continued :
  normalize header_continued = "A = foo" +:+ str1 NL +:+ "B = 2" /\
  parse_header header_continued
  = Ok (<["a " := " foo"]> (<["b " := " 2"]> ∅)).
Proof. split; vm_compute; reflexivity. Qed.

(** The mapping of C8 as the specification words it is not what the parser
    returns. *)
Lemma parse_header_continued_not_trimmed :
  parse_header header_continued <> Ok (<["a" := "foo"]> (<["b" := "2"]> ∅)).
Proof.
  intros H.
  apply (f_equal (fun r => match r with
                           | Ok m => m !! "a"
                           | Raise _ => None
                           end)) in H.
  vm_compute in H. discriminate H.
Qed.

(** ** The configuration formatter *)

Lemma conf_entry_no_newline (kv : string * string) :
  no_newline (fst kv) -> no_newline (snd kv) -> no_newline (conf_entry kv).
Proof.
  unfold no_newline, conf_entry. intros Hk Hv.
  rewrite !mem_append, mem_newline_upper, Hk, Hv. reflexivity.
Qed.

Lemma append_str1 (c : ascii) (a b : string) :
  a +:+ str1 c +:+ b = a +:+ String c b.
Proof. reflexivity. Qed.

(** The text of [mk_conf_str], cut at the newlines the formatter itself
    puts in. *)
Lemma mk_conf_str_unfold (conf : odict) (body : list string) :
  Py.join (str1 NL) body = Py.join (str1 NL) (List.map conf_entry conf) ->
  mk_conf_str conf
  = "" +:+ String NL ("NUM_RUNS = 1" +:+ String NL ("" +:+ String NL
      ("BEGIN" +:+ String NL
        (Py.join (str1 NL) body +:+ String NL ("END" +:+ String NL ""))))).
Proof. intros ->. reflexivity. Qed.

(** C4. For a mapping with N keys none of whose keys and values holds a
    newline, the lines of the formatted text are: an empty line,
    [NUM_RUNS = 1], an empty line, [BEGIN], the N lines [KEY = value] with
    the key upper-cased and the value as it is, in the order of the mapping
    (one empty line when the mapping is empty), [END], and the empty rest
    after the last newline. *)
Theorem mk_conf_str_lines (conf : odict) :
  Forall (fun kv => no_newline (fst kv) /\ no_newline (snd kv)) conf ->
  text_lines (mk_conf_str conf)
  = [""; "NUM_RUNS = 1"; ""; "BEGIN"]
      ++ match conf with
         | [] => [""]
         | _ => List.map (fun kv => Py.upper (fst kv) +:+ " = " +:+ snd kv) conf
         end
      ++ ["END"; ""]
  /\ length (List.map (fun kv => Py.upper (fst kv) +:+ " = " +:+ snd kv) conf)
     = length conf
  /\ (conf <> [] -> conf_block conf (mk_conf_str conf)).
Proof.
  intros Hall.
  assert (Hent : Forall (fun p => Py.mem NL p = false)
                   (List.map conf_entry conf)).
  { induction Hall as [|kv rest [Hk Hv] _ IH]; simpl; constructor;
      [now apply conf_entry_no_newline | exact IH]. }
  set (body := match conf with
               | [] => [""]
               | _ => List.map conf_entry conf
               end).
  assert (Hjoin : Py.join (str1 NL) body
                  = Py.join (str1 NL) (List.map conf_entry conf))
    by (subst body; now destruct conf).
  assert (Hne : body <> []) by (subst body; now destruct conf).
  assert (Hbody : Forall (fun p => Py.mem NL p = false) body).
  { subst body. destruct conf; [repeat constructor | assumption]. }
  assert (Hlines : text_lines (mk_conf_str conf)
                   = [""; "NUM_RUNS = 1"; ""; "BEGIN"] ++ body ++ ["END"; ""]).
  { unfold text_lines. rewrite (mk_conf_str_unfold conf body Hjoin).
    rewrite split_append_sep by reflexivity.
    rewrite split_append_sep by reflexivity.
    rewrite split_append_sep by reflexivity.
    rewrite split_append_sep by reflexivity.
    rewrite split_join_append by assumption.
    rewrite split_append_sep by reflexivity.
    reflexivity. }
  split; [exact Hlines |].
  split; [apply length_map |].
  intros Hconf. exists [""; "NUM_RUNS = 1"; ""], [""].
  split; [| simpl; auto].
  rewrite Hlines. subst body. destruct conf; [congruence | reflexivity].
Qed.

(** The theorem applies to the default configuration of the script. *)
Lemma mk_conf_str_lines_def_conf :
  text_lines (mk_conf_str DEF_CONF)
  = [""; "NUM_RUNS = 1"; ""; "BEGIN";
     "INPUT_FILENAME = "; "OBJECT_NAME = "; "FIELD_NAME = ";
     "BAND_NUMBER = 1"; "SPATIAL_SUBSET_UL_CORNER = ";
     "SPATIAL_SUBSET_LR_CORNER = "; "RESAMPLING_TYPE = BI";
     "OUTPUT_PROJECTION_TYPE = GEO"; "ELLIPSOID_CODE = WGS84";
     "OUTPUT_PROJECTION_PARAMETERS = ( 0.0 0.0 0.0 0.0 0.0 0.0 0.0 0.0 0.0 0.0 0.0 0.0 0.0 0.0 0.0  )";
     "OUTPUT_FILENAME = "; "OUTPUT_TYPE = GEO"; "END"; ""].
Proof.
  refine (eq_trans (proj1 (mk_conf_str_lines DEF_CONF _)) _).
  - repeat constructor.
  - vm_compute. reflexivity.
Defined.

(** A value that spans two lines puts two lines between [BEGIN] and [END]
    for a mapping with one key, so the block of C4 is not there. *)
Lemma mk_conf_str_two_lines :
  length conf_two_lines = 1 /\
  text_lines (mk_conf_str conf_two_lines)
  = [""; "NUM_RUNS = 1"; ""; "BEGIN"; "A = x"; "B = y"; "END"; ""] /\
  ~ conf_block conf_two_lines (mk_conf_str conf_two_lines).
Proof.
  split; [reflexivity |].
  assert (Hl : text_lines (mk_conf_str conf_two_lines)
               = [""; "NUM_RUNS = 1"; ""; "BEGIN"; "A = x"; "B = y"; "END"; ""])
    by (vm_compute; reflexivity).
  split; [exact Hl |].
  intros (pre & post & Heq & _). rewrite Hl in Heq.
  assert (Hin : In (conf_entry ("a", "x" +:+ str1 NL +:+ "B = y"))
                  [""; "NUM_RUNS = 1"; ""; "BEGIN"; "A = x"; "B = y"; "END"; ""]).
  { rewrite Heq. apply in_or_app. right. simpl. right. left. reflexivity. }
  vm_compute in Hin.
  repeat (destruct Hin as [Hin | Hin]; [discriminate Hin |]).
  exact Hin.
Qed.

(** ** The default output path *)




(** ** Configuration assembly *)

(** With the four header fields present the assembly succeeds, and the
    configuration is the default one with six values filled in. *)
Lemma assemble_conf_ok (params : gmap string string)
    (inp_fp out_fp band ul lr names product : string) :
  params !! "grid_ul_corner_latlon" = Some ul ->
  params !! "grid_lr_corner_latlon" = Some lr ->
  params !! "grid_names" = Some names ->
  params !! "input_shortname" = Some product ->
  assemble_conf params inp_fp out_fp band
  = Ok [ ("input_filename", inp_fp);
         ("object_name", Py.replace "," "" names +:+ "|");
         ("field_name", field_name_of product band);
         ("band_number", "1");
         ("spatial_subset_ul_corner", "( " +:+ ul +:+ " )");
         ("spatial_subset_lr_corner", "( " +:+ lr +:+ " )");
         ("resampling_type", "BI");
         ("output_projection_type", "GEO");
         ("ellipsoid_code", "WGS84");
         ("output_projection_parameters",
           "( 0.0 0.0 0.0 0.0 0.0 0.0 0.0 0.0 0.0 0.0 0.0 0.0 0.0 0.0 0.0  )");
         ("output_filename", out_fp);
         ("output_type", "GEO") ].
Proof.
  intros Hul Hlr Hnames Hprod. unfold assemble_conf, getitem.
  rewrite Hul, Hlr, Hnames, Hprod. reflexivity.
Qed.

Lemma field_name_of_entry (product band : string) :
  field_name_of product band = default band (table_entry product band).
Proof.
  unfold field_name_of, table_entry.
  destruct (BANDS !! product) as [table|]; simpl; [reflexivity |].
  now rewrite lookup_empty.
Qed.

(** The band table has no entry for the alias [foo], whatever the product. *)
Lemma table_entry_foo (product : string) : table_entry product "foo" = None.
Proof.
  unfold table_entry, BANDS. cbn [list_to_map foldr uncurry fst snd].
  rewrite lookup_insert. case_decide; [vm_compute; reflexivity |].
  rewrite lookup_insert. case_decide; [vm_compute; reflexivity |].
  now rewrite lookup_empty.
Qed.

(** C6. The field name of the assembled configuration is the entry of the
    band table for the product of the header and the band alias when there
    is one, and the band alias itself when there is none.  The table gives
    [250m 16 days NDVI] for [MOD13Q1] and [ndvi], and has no entry for the
    alias [foo]. *)
Theorem field_name_resolution :
  (forall params inp_fp out_fp band ul lr names product,
     params !! "grid_ul_corner_latlon" = Some ul ->
     params !! "grid_lr_corner_latlon" = Some lr ->
     params !! "grid_names" = Some names ->
     params !! "input_shortname" = Some product ->
     exists conf,
       assemble_conf params inp_fp out_fp band = Ok conf /\
       (forall field, table_entry product band = Some field ->
                      dict_get "field_name" conf = Some field) /\
       (table_entry product band = None ->
        dict_get "field_name" conf = Some band)) /\
  table_entry "MOD13Q1" "ndvi" = Some "250m 16 days NDVI" /\
  field_name_of "MOD13Q1" "ndvi" = "250m 16 days NDVI" /\
  (forall product, table_entry product "foo" = None) /\
  (forall product, field_name_of product "foo" = "foo").
Proof.
  split; [| split; [| split; [| split]]].
  - intros params inp_fp out_fp band ul lr names product Hul Hlr Hnames Hprod.
    eexists. split; [eapply assemble_conf_ok; eassumption |].
    cbn [dict_get String.eqb Ascii.eqb Bool.eqb]. rewrite field_name_of_entry.
    split; [intros field -> | intros ->]; reflexivity.
  - vm_compute. reflexivity.
  - vm_compute. reflexivity.
  - exact table_entry_foo.
  - intros product. now rewrite field_name_of_entry, table_entry_foo.
Qed.

(** C6 at the sample header with the aliases [ndvi] and [foo]. *)
Lemma field_name_resolution_sample :
  (exists conf,
     assemble_conf params_mod13q1 "scene.hdf" "scene.tif" "ndvi" = Ok conf /\
     dict_get "field_name" conf = Some "250m 16 days NDVI") /\
  (exists conf,
     assemble_conf params_mod13q1 "scene.hdf" "scene.tif" "foo" = Ok conf /\
     dict_get "field_name" conf = Some "foo").
Proof.
  split.
  - destruct (proj1 field_name_resolution params_mod13q1 "scene.hdf" "scene.tif"
                "ndvi" "40.0 -117.5" "30.0 -92.4"
                "MODIS_Grid_16DAY_250m_500m_VI," "MOD13Q1")
      as (conf & Hconf & Hsome & _); try (vm_compute; reflexivity).
    exists conf. split; [exact Hconf |]. apply Hsome. vm_compute. reflexivity.
  - destruct (proj1 field_name_resolution params_mod13q1 "scene.hdf" "scene.tif"
                "foo" "40.0 -117.5" "30.0 -92.4"
                "MODIS_Grid_16DAY_250m_500m_VI," "MOD13Q1")
      as (conf & Hconf & _ & Hnone); try (vm_compute; reflexivity).
    exists conf. split; [exact Hconf |]. apply Hnone. vm_compute. reflexivity.
Defined.

(** C7. From a header mapping with the two grid corners, the grid names and
    the product [MOD13Q1], and the band alias [evi], the assembly succeeds;
    the field name of the configuration is [250m 16 days EVI] and its object
    name is the grid names with every comma left out, followed by one
    [|]. *)
Theorem assemble_conf_mod13q1_evi
    (params : gmap string string) (inp_fp out_fp ul lr names : string) :
  params !! "grid_ul_corner_latlon" = Some ul ->
  params !! "grid_lr_corner_latlon" = Some lr ->
  params !! "grid_names" = Some names ->
  params !! "input_shortname" = Some "MOD13Q1" ->
  exists conf,
    assemble_conf params inp_fp out_fp "evi" = Ok conf /\
    dict_get "field_name" conf = Some "250m 16 days EVI" /\
    dict_get "object_name" conf = Some (without_char "," names +:+ "|").
Proof.
  intros Hul Hlr Hnames Hprod. eexists.
  split; [eapply assemble_conf_ok; eassumption |].
  split; [vm_compute; reflexivity |].
  cbn [dict_get String.eqb Ascii.eqb Bool.eqb].
  now rewrite <- (replace_char_empty ",").
Qed.

(** C7 at the mapping parsed from the sample header. *)
Lemma assemble_conf_mod13q1_evi_sample :
  parse_header header_mod13q1 = Ok params_mod13q1 /\
  exists conf,
    assemble_conf params_mod13q1 "scene.hdf" "scene.tif" "evi" = Ok conf /\
    dict_get "field_name" conf = Some "250m 16 days EVI" /\
    dict_get "object_name" conf
    = Some (without_char "," "MODIS_Grid_16DAY_250m_500m_VI," +:+ "|").
Proof.
  split; [vm_compute; reflexivity |].
  apply (assemble_conf_mod13q1_evi params_mod13q1 "scene.hdf" "scene.tif"
           "40.0 -117.5" "30.0 -92.4");
    vm_compute; reflexivity.
Defined.

(** ** The pipeline: what a run leaves in the trace *)

Lemma quiet_printed (new : list event) :
  Forall (fun e => quiet e = true) new -> printed new = [].
Proof.
  induction 1 as [|e new He _ IH]; [reflexivity |].
  unfold printed in *. cbn [omap list_omap]. rewrite IH.
  now destruct e.
Qed.

Lemma quiet_no_run (new : list event) (cmd : list string) (v : bool) :
  Forall (fun e => quiet e = true) new -> ~ In (Run cmd v) new.
Proof.
  induction 1 as [|e new He _ IH]; intros Hin; [exact Hin |].
  destruct Hin as [-> | Hin]; [discriminate He | exact (IH Hin)].
Qed.

Lemma printed_app (tr1 tr2 : list event) :
  printed (tr1 ++ tr2) = printed tr1 ++ printed tr2.
Proof. apply omap_app. Qed.

Lemma runs_app (tr1 tr2 : list event) : runs (tr1 ++ tr2) = runs tr1 ++ runs tr2.
Proof. apply omap_app. Qed.

Lemma runs_removes (fps : list string) : runs (List.map Remove fps) = [].
Proof. induction fps as [|fp fps IH]; [reflexivity | exact IH]. Qed.

Section Runs.

Variable w : world.

(** A computation that only adds quiet events to the trace. *)
Lemma aborts_quiet {A} (c : M A) :
  (forall st, exists new,
      trace (snd (c st)) = trace st ++ new /\
      Forall (fun e => quiet e = true) new) ->
  aborts_on_failure w c.
Proof.
  intros Hc st r st' Hrun. destruct (Hc st) as (new & Htr & Hq).
  rewrite Hrun in Htr. exists new. split; [exact Htr |].
  split; [now apply quiet_printed |].
  intros cmd v Hin _. now apply quiet_no_run in Hin.
Qed.

Lemma aborts_ret {A} (a : A) : aborts_on_failure w (ret a).
Proof.
  apply aborts_quiet. intros st. exists []. simpl.
  now rewrite List.app_nil_r.
Qed.

Lemma aborts_raise {A} (e : exn) : aborts_on_failure w (@raise A e).
Proof.
  apply aborts_quiet. intros st. exists []. simpl.
  now rewrite List.app_nil_r.
Qed.

Lemma aborts_lift {A} (r : result A) : aborts_on_failure w (lift r).
Proof.
  apply aborts_quiet. intros st. exists []. simpl.
  now rewrite List.app_nil_r.
Qed.

Lemma aborts_emit (e : event) : quiet e = true -> aborts_on_failure w (emit e).
Proof.
  intros He. apply aborts_quiet. intros st. exists [e]. simpl.
  split; [reflexivity | now constructor].
Qed.

Lemma aborts_mktemp : aborts_on_failure w (mktemp w).
Proof.
  apply aborts_quiet. intros st. exists []. simpl.
  now rewrite List.app_nil_r.
Qed.

Lemma aborts_remove_if_file (fp : string) :
  aborts_on_failure w (remove_if_file w fp).
Proof.
  unfold remove_if_file. destruct (isfile w fp);
    [now apply aborts_emit | apply aborts_ret].
Qed.

Lemma aborts_open_read (fp : string) : aborts_on_failure w (open_read w fp).
Proof.
  unfold open_read. destruct (read_file w fp);
    [apply aborts_ret | apply aborts_raise].
Qed.

(** Starting a child: the one new event is the [Run], and a code other than
    zero raises. *)
Lemma aborts_sp_run (cmd : list string) (v : bool) :
  aborts_on_failure w (sp_run w cmd v).
Proof.
  intros st r st' Hrun. unfold sp_run, bind, emit, ret, raise in Hrun.
  exists [Run cmd v].
  destruct (Z.eqb (returncode w cmd) 0) eqn:E; inversion Hrun; subst; clear Hrun;
    (split; [reflexivity |]); (split; [reflexivity |]);
    intros cmd' v' [Heq | []] Hne; inversion Heq; subst.
  - apply Z.eqb_eq in E. contradiction.
  - split; [reflexivity | now exists []].
Qed.

Lemma aborts_bind {A B} (c : M A) (k : A -> M B) :
  aborts_on_failure w c ->
  (forall a, aborts_on_failure w (k a)) ->
  aborts_on_failure w (bind c k).
Proof.
  intros Hc Hk st r st' Hrun. unfold bind in Hrun.
  destruct (c st) as [r1 st1] eqn:Ec.
  destruct (Hc _ _ _ Ec) as (new1 & Ht1 & Hp1 & Hr1).
  destruct r1 as [a | e].
  - destruct (Hk a _ _ _ Hrun) as (new2 & Ht2 & Hp2 & Hr2).
    exists (new1 ++ new2).
    split; [now rewrite Ht2, Ht1, List.app_assoc |].
    split; [now rewrite printed_app, Hp1, Hp2 |].
    intros cmd v Hin Hne. apply in_app_or in Hin as [Hin | Hin].
    + destruct (Hr1 cmd v Hin Hne) as [Hr _]. discriminate Hr.
    + destruct (Hr2 cmd v Hin Hne) as [Hr [before ->]].
      split; [exact Hr |]. exists (new1 ++ before).
      now rewrite List.app_assoc.
  - inversion Hrun; subst. exists new1.
    split; [exact Ht1 | split; [exact Hp1 |]].
    intros cmd v Hin Hne. destruct (Hr1 cmd v Hin Hne) as [Hr Hlast].
    split; [congruence | exact Hlast].
Qed.

Lemma aborts_for_each {A} (xs : list A) (body : A -> M unit) :
  (forall x, aborts_on_failure w (body x)) ->
  aborts_on_failure w (for_each xs body).
Proof.
  intros Hbody. induction xs as [|x xs IH]; simpl.
  - apply aborts_ret.
  - apply aborts_bind; [apply Hbody | intros _; exact IH].
Qed.

Lemma aborts_stat (inp_fp : string) (v : bool) :
  aborts_on_failure w (stat w inp_fp v).
Proof.
  unfold stat.
  apply aborts_bind; [apply aborts_sp_run | intros _].
  apply aborts_bind; [apply aborts_remove_if_file | intros _].
  apply aborts_bind; [apply aborts_open_read | intros text].
  apply aborts_bind; [now apply aborts_emit | intros _].
  apply aborts_lift.
Qed.

Lemma aborts_hdf_to_tif (inp_fp out_fp band proj : string) (v : bool) :
  aborts_on_failure w (hdf_to_tif w inp_fp out_fp band proj v).
Proof.
  unfold hdf_to_tif.
  apply aborts_bind; [now apply aborts_emit | intros _].
  apply aborts_bind; [apply aborts_stat | intros params].
  apply aborts_bind; [apply aborts_lift | intros conf].
  apply aborts_bind; [| intros conf_fp].
  { unfold mk_conf_file.
    apply aborts_bind; [apply aborts_mktemp | intros tmp_fp].
    apply aborts_bind; [now apply aborts_emit | intros _].
    apply aborts_ret. }
  apply aborts_bind; [apply aborts_sp_run | intros _].
  apply aborts_bind;
    [apply aborts_for_each; apply aborts_remove_if_file | intros _].
  destruct (negb (Py.is_empty proj)); [| apply aborts_ret].
  apply aborts_bind; [apply aborts_mktemp | intros tmp].
  apply aborts_bind; [apply aborts_sp_run | intros _].
  now apply aborts_emit.
Qed.

(** The four ways through [main]: help, no input path, no band, and the
    conversion. *)
Lemma main_cases (a : args) :
  (hlp_val a = true /\
   main w a init
   = (Ok tt, {| trace := [DescribeArgs "options:"]; temps := 0 |})) \/
  (hlp_val a = false /\ inp_found a = false /\
   main w a init
   = (Raise (SystemExit 1),
      {| trace := [Print "error: must provide input filepath (use --help)"];
         temps := 0 |})) \/
  (hlp_val a = false /\ inp_found a = true /\ band_found a = false /\
   main w a init
   = (Raise (SystemExit 1),
      {| trace := [Print "error: must provide band (use --help)"];
         temps := 0 |})) \/
  (hlp_val a = false /\ inp_found a = true /\ band_found a = true /\
   main w a init
   = hdf_to_tif w (inp_val a) (out_path a) (band_val a) (proj_val a)
       (negb (silence_val a)) init).
Proof.
  unfold main, out_path.
  destruct (hlp_val a); [left; split; reflexivity | right].
  destruct (inp_found a); [right | left; repeat split; reflexivity].
  destruct (band_found a); [right | left; repeat split; reflexivity].
  repeat split; reflexivity.
Qed.

End Runs.

Lemma for_each_remove_run (w : world) (fps : list string) (st : state) :
  for_each fps (remove_if_file w) st
  = (Ok tt, {| trace := trace st ++ List.map Remove (List.filter (isfile w) fps);
               temps := temps st |}).
Proof.
  revert st. induction fps as [|fp fps IH]; intros st.
  - simpl. rewrite List.app_nil_r. now destruct st.
  - cbn [for_each List.filter]. unfold bind, remove_if_file.
    destruct (isfile w fp); simpl; rewrite IH; simpl;
      [now rewrite <- List.app_assoc | reflexivity].
Qed.

(** ** Tool failures *)

(** C2. When a child process started by the script returns a code other
    than zero, the run ends there with the [CalledProcessError] that
    [sp.run] raises: that child is the last event of the trace, the process
    status is 1, and the script has printed nothing on the standard output.
    The [error:] line belongs to the argument checks alone. *)
Theorem tool_failure_aborts (w : world) (a : args) (cmd : list string) (v : bool) :
  In (Run cmd v) (snd (run_main w a)) ->
  returncode w cmd <> 0%Z ->
  fst (run_main w a) = Raise (CalledProcessError cmd (returncode w cmd)) /\
  exit_status (fst (run_main w a)) = 1%Z /\
  (exists before, snd (run_main w a) = before ++ [Run cmd v]) /\
  printed (snd (run_main w a)) = [].
Proof.
  unfold run_main. intros Hin Hne.
  destruct (main_cases w a) as
    [[_ Hm] | [(_ & _ & Hm) | [(_ & _ & _ & Hm) | (_ & _ & _ & Hm)]]].
  - rewrite Hm in Hin. destruct Hin as [Heq | []]. discriminate Heq.
  - rewrite Hm in Hin. destruct Hin as [Heq | []]. discriminate Heq.
  - rewrite Hm in Hin. destruct Hin as [Heq | []]. discriminate Heq.
  - destruct (main w a init) as [r st] eqn:Erun. simpl in Hin |- *.
    symmetry in Hm.
    destruct (aborts_hdf_to_tif w _ _ _ _ _ _ _ _ Hm)
      as (new & Htr & Hpr & Hfail).
    simpl in Htr. subst new.
    destruct (Hfail cmd v Hin Hne) as [-> Hlast].
    repeat split; [exact Hlast | exact Hpr].
Qed.

(** C2 where the stat tool returns 1. *)
Lemma tool_failure_aborts_stat :
  fst (run_main world_stat_fails args_full)
  = Raise (CalledProcessError [STAT_CMD; "-h"; "scene.hdf"] 1) /\
  exit_status (fst (run_main world_stat_fails args_full)) = 1%Z /\
  (exists before,
     snd (run_main world_stat_fails args_full)
     = before ++ [Run [STAT_CMD; "-h"; "scene.hdf"] true]) /\
  printed (snd (run_main world_stat_fails args_full)) = [].
Proof.
  apply (tool_failure_aborts world_stat_fails args_full
           [STAT_CMD; "-h"; "scene.hdf"] true).
  - vm_compute. right. left. reflexivity.
  - vm_compute. discriminate.
Defined.

(** With a failing stat tool the script prints no [error:] line. *)
Lemma tool_failure_prints_nothing :
  returncode world_stat_fails [STAT_CMD; "-h"; "scene.hdf"] <> 0%Z /\
  run_main world_stat_fails args_full
  = (Raise (CalledProcessError [STAT_CMD; "-h"; "scene.hdf"] 1),
     [EnvUpdate ENV; Run [STAT_CMD; "-h"; "scene.hdf"] true]) /\
  ~ exists msg,
      In ("error: " +:+ msg) (printed (snd (run_main world_stat_fails args_full))).
Proof.
  split; [vm_compute; discriminate |].
  split; [vm_compute; reflexivity |].
  intros [msg Hin]. vm_compute in Hin. exact Hin.
Qed.

(** ** Usage errors *)

(** C9. Without the help flag, a missing input path or a missing band ends
    the run with one [error:] line printed, status 1 and no child process
    started.  With the help flag the options are described, the run ends
    with status 0 whatever else is missing, and no child process is started
    either. *)
Theorem usage_error_before_tools (w : world) (a : args) :
  (hlp_val a = false ->
   inp_found a = false \/ band_found a = false ->
   (exists msg,
      run_main w a = (Raise (SystemExit 1), [Print ("error: " +:+ msg)])) /\
   exit_status (fst (run_main w a)) = 1%Z /\
   runs (snd (run_main w a)) = []) /\
  (hlp_val a = true ->
   run_main w a = (Ok tt, [DescribeArgs "options:"]) /\
   exit_status (fst (run_main w a)) = 0%Z /\
   runs (snd (run_main w a)) = []).
Proof.
  unfold run_main.
  destruct (main_cases w a) as
    [[Hh Hm] | [(Hh & Hi & Hm) | [(Hh & Hi & Hb & Hm) | (Hh & Hi & Hb & Hm)]]];
    split; intros Hhlp; try congruence.
  - rewrite Hm. repeat split.
  - intros _. rewrite Hm. split; [| split; reflexivity].
    now exists "must provide input filepath (use --help)".
  - intros _. rewrite Hm. split; [| split; reflexivity].
    now exists "must provide band (use --help)".
  - intros [Hmiss | Hmiss]; congruence.
Qed.

(** C9 at a command line without the band, and at the help flag alone. *)
Lemma usage_error_before_tools_sample :
  ((exists msg,
      run_main world_ok args_no_band
      = (Raise (SystemExit 1), [Print ("error: " +:+ msg)])) /\
   exit_status (fst (run_main world_ok args_no_band)) = 1%Z /\
   runs (snd (run_main world_ok args_no_band)) = []) /\
  (run_main world_ok args_help_only = (Ok tt, [DescribeArgs "options:"]) /\
   exit_status (fst (run_main world_ok args_help_only)) = 0%Z /\
   runs (snd (run_main world_ok args_help_only)) = []).
Proof.
  split.
  - apply (proj1 (usage_error_before_tools world_ok args_no_band));
      [reflexivity | right; reflexivity].
  - apply (proj2 (usage_error_before_tools world_ok args_help_only)).
    reflexivity.
Defined.

(** With only the help flag on the command line both required arguments
    are missing, yet the run ends with status 0 and prints no [error:]
    line. *)
Lemma help_without_required_args :
  inp_found args_help_only = false /\
  band_found args_help_only = false /\
  exit_status (fst (run_main world_ok args_help_only)) = 0%Z /\
  printed (snd (run_main world_ok args_help_only)) = [].
Proof. repeat split. Qed.

(** ** The reprojection command *)

(** C10. With a projection that is not the empty string, a stat tool and a
    conversion tool that succeed, and a header that parses and holds the
    fields the configuration needs, three child processes are started, and
    the third is the reprojection tool with the upper-cased projection after
    [-t_srs]; [epsg:4326] is passed as [EPSG:4326]. *)
Theorem warp_projection_upper_cased :
  (forall (w : world) (inp_fp out_fp band proj text : string) (verbose : bool)
          (params : gmap string string) (conf : odict),
     proj <> "" ->
     returncode w [STAT_CMD; "-h"; inp_fp] = 0%Z ->
     read_file w STAT_OUT_FILENAME = Some text ->
     parse_header text = Ok params ->
     assemble_conf params inp_fp out_fp band = Ok conf ->
     returncode w [CVT_CMD; "-p"; mktemp_name w 0] = 0%Z ->
     runs (trace (snd (hdf_to_tif w inp_fp out_fp band proj verbose init)))
     = [ [STAT_CMD; "-h"; inp_fp];
         [CVT_CMD; "-p"; mktemp_name w 0];
         [WARP_CMD; out_fp; mktemp_name w 1; "-t_srs"; Py.upper proj] ]) /\
  Py.upper "epsg:4326" = "EPSG:4326".
Proof.
  split; [| vm_compute; reflexivity].
  intros w inp_fp out_fp band proj text verbose params conf
    Hproj Hstat Hread Hparse Hconf Hcvt.
  unfold parse_header in Hparse.
  unfold hdf_to_tif, stat, run_stat_cmd, run_convert_cmd, run_warp_cmd,
    mk_conf_file, mktemp, open_read, sp_run.
  unfold bind at 1. cbn [emit init trace temps app].
  unfold bind at 1. unfold bind at 1. unfold bind at 1.
  cbn [emit trace temps app]. rewrite Hstat. cbn [Z.eqb ret].
  unfold bind at 1.
  destruct (remove_if_file w STAT_LOG_FILENAME _) as [r1 st1] eqn:E1.
  assert (Hst1 : r1 = Ok tt /\ runs (trace st1) = [[STAT_CMD; "-h"; inp_fp]]
                 /\ temps st1 = 0).
  { unfold remove_if_file in E1. destruct (isfile w STAT_LOG_FILENAME);
      inversion E1; subst; repeat split. }
  destruct Hst1 as (-> & Hruns1 & Htemps1).
  unfold bind at 1. rewrite Hread. cbn [ret].
  unfold bind at 1. cbn [emit lift]. rewrite Hparse.
  unfold bind at 1. cbn [lift]. rewrite Hconf.
  unfold bind at 1. unfold bind at 1. cbn [trace temps].
  unfold bind at 1. cbn [emit trace temps ret].
  unfold bind at 1. unfold bind at 1. cbn [emit trace temps].
  rewrite Htemps1, Hcvt. cbn [Z.eqb ret].
  unfold bind at 1. rewrite for_each_remove_run. cbn [trace temps].
  destruct proj as [|c proj]; [congruence |]. cbn [Py.is_empty negb].
  unfold bind at 1. unfold bind at 1. unfold bind at 1.
  cbn [emit trace temps].
  destruct (Z.eqb (returncode w _) 0); cbn [ret raise emit snd trace];
    rewrite !runs_app, runs_removes, Hruns1; reflexivity.
Qed.

(** C10 in the surroundings where every tool succeeds. *)
Lemma warp_projection_upper_cased_sample :
  runs (trace (snd (hdf_to_tif world_ok "scene.hdf" "scene.tif" "evi"
                      "epsg:4326" true init)))
  = [ [STAT_CMD; "-h"; "scene.hdf"];
      [CVT_CMD; "-p"; "/tmp/tmp0"];
      [WARP_CMD; "scene.tif"; "/tmp/tmp1"; "-t_srs"; "EPSG:4326"] ].
Proof.
  refine (eq_trans
            (proj1 warp_projection_upper_cased world_ok "scene.hdf" "scene.tif"
               "evi" "epsg:4326" header_mod13q1 true params_mod13q1
               _ _ _ _ _ _ _) _).
  - discriminate.
  - reflexivity.
  - reflexivity.
  - vm_compute. reflexivity.
  - vm_compute. reflexivity.
  - reflexivity.
  - vm_compute. reflexivity.
Defined.

(** ** More on the header parser *)

Lemma split_second (sep : ascii) (s : string) :
  Py.mem sep s = true ->
  exists k v rest, Py.split sep s = k :: v :: rest.
Proof.
  induction s as [|c s IH]; simpl; intros H; [discriminate H |].
  destruct (Ascii.eqb c sep) eqn:E.
  - destruct (Py.split sep s) as [|p ps] eqn:Es;
      [now apply split_not_nil in Es | eauto].
  - rewrite Ascii.eqb_sym, E in H. simpl in H.
    destruct (IH H) as (k & v & rest & ->). eauto.
Qed.

Lemma mk_params_app (l1 l2 : list string) (acc : gmap string string) :
  mk_params (l1 ++ l2) acc
  = match mk_params l1 acc with
    | Ok m => mk_params l2 m
    | Raise e => Raise e
    end.
Proof.
  revert acc. induction l1 as [|l l1 IH]; intros acc; [reflexivity |].
  simpl. destruct (Py.split "=" l !! 0%nat); [| reflexivity].
  destruct (Py.split "=" l !! 1%nat); [apply IH | reflexivity].
Qed.

Lemma mk_params_ok (lines : list string) (acc : gmap string string) :
  Forall (fun l => Py.mem "=" l = true) lines ->
  exists m, mk_params lines acc = Ok m.
Proof.
  intros Hall. revert acc.
  induction Hall as [|l lines Hl _ IH]; intros acc; [now exists acc |].
  simpl. destruct (split_second _ _ Hl) as (k & v & rest & ->). simpl.
  apply IH.
Qed.

Lemma mk_params_index_error (lines : list string) (acc : gmap string string) :
  Exists (fun l => Py.mem "=" l = false) lines ->
  mk_params lines acc = Raise IndexError.
Proof.
  intros Hex. revert acc.
  induction Hex as [l lines Hl | l lines _ IH]; intros acc; simpl.
  - rewrite (split_no_sep _ _ Hl). reflexivity.
  - destruct (Py.split "=" l !! 0%nat); [| reflexivity].
    destruct (Py.split "=" l !! 1%nat); [apply IH | reflexivity].
Qed.

(** X1. The parser returns a mapping when every header line holds an equals
    sign, and raises [IndexError] as soon as one header line holds none. *)
Theorem parse_header_index_error (text : string) :
  (Forall (fun l => Py.mem "=" l = true) (header_lines (normalize text)) ->
   exists m, parse_header text = Ok m) /\
  (Exists (fun l => Py.mem "=" l = false) (header_lines (normalize text)) ->
   parse_header text = Raise IndexError).
Proof.
  split; intros H; [now apply mk_params_ok | now apply mk_params_index_error].
Qed.

(** X1 on a header of two records and on one with a line without an equals
    sign after a good record. *)
Lemma parse_header_index_error_sample :
  (exists m, parse_header header_tight = Ok m) /\
  parse_header ("A=1" +:+ str1 NL +:+ "BEGIN") = Raise IndexError.
Proof.
  split.
  - apply (proj1 (parse_header_index_error header_tight)).
    vm_compute. repeat constructor.
  - apply (proj2 (parse_header_index_error ("A=1" +:+ str1 NL +:+ "BEGIN"))).
    vm_compute. apply Exists_cons_tl, Exists_cons_hd. reflexivity.
Defined.

(** X2. A record added after the others decides the value of its key,
    lower-cased, whatever the earlier lines stored for it; every other key
    keeps its value. *)
Theorem mk_params_last_wins (lines : list string) (l k v : string)
    (acc m : gmap string string) :
  mk_params lines acc = Ok m ->
  Py.split "=" l !! 0%nat = Some k ->
  Py.split "=" l !! 1%nat = Some v ->
  exists m',
    mk_params (lines ++ [l]) acc = Ok m' /\
    m' !! Py.lower k = Some v /\
    forall k', k' <> Py.lower k -> m' !! k' = m !! k'.
Proof.
  intros Hm Hk Hv. exists (<[Py.lower k := v]> m).
  rewrite mk_params_app, Hm. simpl. rewrite Hk, Hv.
  split; [reflexivity |]. split; [apply lookup_insert_eq |].
  intros k' Hne. now apply lookup_insert_ne.
Qed.

(** X2 where the key [A] of the first line comes back as [a] on the third. *)
Lemma mk_params_last_wins_sample :
  exists m',
    mk_params (["A=1"; "B=2"] ++ ["a=3"]) ∅ = Ok m' /\
    m' !! Py.lower "a" = Some "3" /\
    forall k', k' <> Py.lower "a" ->
               m' !! k' = (<["b" := "2"]> (<["a" := "1"]> ∅) : gmap string string) !! k'.
Proof.
  apply (mk_params_last_wins ["A=1"; "B=2"] "a=3" "a" "3" ∅);
    vm_compute; reflexivity.
Defined.

Lemma lower_char_idem (c : ascii) :
  Py.lower_char (Py.lower_char c) = Py.lower_char c.
Proof. destruct c as [[] [] [] [] [] [] [] []]; vm_compute; reflexivity. Qed.

Lemma lower_idem (s : string) : Py.lower (Py.lower s) = Py.lower s.
Proof.
  unfold Py.lower. induction s as [|c s IH]; [reflexivity |].
  cbn [Py.map_chars]. now rewrite lower_char_idem, IH.
Qed.

Lemma lower_char_is_lower (c : ascii) :
  Py.is_upper c = true -> Py.is_lower (Py.lower_char c) = true.
Proof.
  destruct c as [[] [] [] [] [] [] [] []]; vm_compute; intros H;
    first [reflexivity | discriminate H].
Qed.

(** Lower-casing brings in no character other than a lower-case letter. *)
Lemma mem_lower_false (d : ascii) (s : string) :
  Py.is_lower d = false -> Py.mem d s = false -> Py.mem d (Py.lower s) = false.
Proof.
  intros Hd. unfold Py.lower. induction s as [|c s IH]; [reflexivity |].
  cbn [Py.map_chars Py.mem]. intros H.
  apply orb_false_iff in H as [Hc Hs]. rewrite (IH Hs), orb_false_r.
  unfold Py.lower_char. destruct (Py.is_upper c) eqn:Eu; [| exact Hc].
  apply Ascii.eqb_neq. intros ->.
  pose proof (lower_char_is_lower c Eu) as Hl. unfold Py.lower_char in Hl.
  rewrite Eu in Hl. congruence.
Qed.

Lemma mem_lstrip_false (d : ascii) (chars s : string) :
  Py.mem d s = false -> Py.mem d (Py.lstrip chars s) = false.
Proof.
  induction s as [|c s IH]; [reflexivity |]. cbn [Py.lstrip].
  intros H. destruct (Py.mem c chars); [| exact H].
  cbn [Py.mem] in H. apply orb_false_iff in H as [_ Hs]. now apply IH.
Qed.

Lemma mem_rstrip_false (d : ascii) (chars s : string) :
  Py.mem d s = false -> Py.mem d (Py.rstrip chars s) = false.
Proof.
  induction s as [|c s IH]; [reflexivity |]. cbn [Py.rstrip Py.mem].
  intros H. apply orb_false_iff in H as [Hc Hs].
  destruct (Py.is_empty (Py.rstrip chars s) && Py.mem c chars)%bool;
    [reflexivity |].
  cbn [Py.mem]. now rewrite Hc, (IH Hs).
Qed.

Lemma mem_strip_false (d : ascii) (chars s : string) :
  Py.mem d s = false -> Py.mem d (Py.strip chars s) = false.
Proof.
  intros H. unfold Py.strip. now apply mem_rstrip_false, mem_lstrip_false.
Qed.

(** The pieces of a split hold no separator, and no character the whole
    string does not hold. *)
Lemma split_pieces_no_sep (sep : ascii) (s : string) :
  Forall (fun p => Py.mem sep p = false) (Py.split sep s).
Proof.
  induction s as [|c s IH]; simpl; [now repeat constructor |].
  destruct (Ascii.eqb c sep) eqn:E; [now constructor |].
  destruct (Py.split sep s) as [|p ps] eqn:Es;
    [now apply split_not_nil in Es |].
  inversion IH as [|? ? Hp Hps]; subst. constructor; [| exact Hps].
  cbn [Py.mem]. now rewrite Ascii.eqb_sym, E, Hp.
Qed.

Lemma split_pieces_mem_false (d sep : ascii) (s : string) :
  Py.mem d s = false ->
  Forall (fun p => Py.mem d p = false) (Py.split sep s).
Proof.
  induction s as [|c s IH]; simpl; intros H; [now repeat constructor |].
  apply orb_false_iff in H as [Hc Hs]. specialize (IH Hs).
  destruct (Ascii.eqb c sep); [now constructor |].
  destruct (Py.split sep s) as [|p ps] eqn:Es;
    [now apply split_not_nil in Es |].
  inversion IH as [|? ? Hp Hps]; subst. constructor; [| exact Hps].
  cbn [Py.mem]. now rewrite Hc, Hp.
Qed.

(** Replacing a character by a text without it leaves none of it. *)
Lemma replace_char_gone (c : ascii) (new s : string) :
  Py.mem c new = false -> Py.mem c (Py.replace (str1 c) new s) = false.
Proof.
  intros Hnew. unfold Py.replace. simpl Py.is_empty. cbv iota.
  induction s as [|d s IH]; [reflexivity |].
  simpl. replace (String.prefix "" s) with true by (now destruct s).
  destruct (Ascii.ascii_dec c d) as [->|Hne].
  - now rewrite mem_append, Hnew, IH.
  - cbn [Py.mem]. rewrite IH, orb_false_r. apply Ascii.eqb_neq. exact Hne.
Qed.

Lemma rstrip_idem (chars s : string) :
  Py.rstrip chars (Py.rstrip chars s) = Py.rstrip chars s.
Proof.
  induction s as [|c s IH]; [reflexivity |]. cbn [Py.rstrip].
  destruct (Py.is_empty (Py.rstrip chars s) && Py.mem c chars)%bool eqn:E;
    [reflexivity |].
  cbn [Py.rstrip]. now rewrite IH, E.
Qed.

Lemma lstrip_head (chars s : string) :
  Py.lstrip chars s = EmptyString \/
  exists c s', Py.lstrip chars s = String c s' /\ Py.mem c chars = false.
Proof.
  induction s as [|c s IH]; [now left |]. cbn [Py.lstrip].
  destruct (Py.mem c chars) eqn:E; [exact IH | right; eauto].
Qed.

Lemma strip_idem (chars s : string) :
  Py.strip chars (Py.strip chars s) = Py.strip chars s.
Proof.
  unfold Py.strip.
  destruct (lstrip_head chars s) as [-> | (c & s' & -> & Hc)]; [reflexivity |].
  cbn [Py.rstrip]. rewrite Hc, andb_false_r. cbn [Py.lstrip]. rewrite Hc.
  cbn [Py.rstrip]. now rewrite rstrip_idem, Hc, andb_false_r.
Qed.

Lemma header_line_facts (text l : string) :
  In l (header_lines (normalize text)) ->
  l <> EmptyString /\
  Py.strip " " l = l /\
  Py.mem NL l = false /\
  Py.mem TAB l = false.
Proof.
  unfold header_lines. intros Hin.
  apply List.in_map_iff in Hin as (l0 & <- & Hin).
  apply List.filter_In in Hin as [Hin Hne].
  split; [| split; [| split]].
  - intros E. rewrite E in Hne. discriminate Hne.
  - apply strip_idem.
  - apply mem_strip_false.
    pose proof (split_pieces_no_sep NL (normalize text)) as Hall.
    rewrite List.Forall_forall in Hall. now apply Hall.
  - apply mem_strip_false.
    assert (Htab : Py.mem TAB (normalize text) = false)
      by (unfold normalize; now apply replace_char_gone).
    pose proof (split_pieces_mem_false TAB NL _ Htab) as Hall.
    rewrite List.Forall_forall in Hall. now apply Hall.
Qed.

(** What holds of the key and the value of every line, and of every entry
    stored before, holds of every entry of the mapping. *)
Lemma mk_params_inv (PK PV : string -> Prop) (lines : list string) :
  (forall l k v, In l lines ->
     Py.split "=" l !! 0%nat = Some k -> Py.split "=" l !! 1%nat = Some v ->
     PK (Py.lower k) /\ PV v) ->
  forall acc m : gmap string string,
    (forall k v, acc !! k = Some v -> PK k /\ PV v) ->
    mk_params lines acc = Ok m ->
    forall k v, m !! k = Some v -> PK k /\ PV v.
Proof.
  induction lines as [|l lines IH]; intros Hlines acc m Hacc Hm.
  - inversion Hm; subst. exact Hacc.
  - simpl in Hm.
    destruct (Py.split "=" l !! 0%nat) as [k0|] eqn:Ek; [| discriminate Hm].
    destruct (Py.split "=" l !! 1%nat) as [v0|] eqn:Ev; [| discriminate Hm].
    apply (IH (fun l' k v Hin => Hlines l' k v (or_intror Hin))
              (<[Py.lower k0 := v0]> acc) m); [| exact Hm].
    intros k v Hkv. apply lookup_insert_Some in Hkv as [[<- <-] | [_ Hkv]].
    + apply (Hlines l); [now left | exact Ek | exact Ev].
    + now apply Hacc.
Qed.

Lemma parse_header_entry_facts (text : string) (m : gmap string string)
    (k v : string) :
  parse_header text = Ok m ->
  m !! k = Some v ->
  (Py.lower k = k /\
   Py.mem "=" k = false /\ Py.mem NL k = false /\ Py.mem TAB k = false) /\
  (Py.mem "=" v = false /\ Py.mem NL v = false /\ Py.mem TAB v = false).
Proof.
  unfold parse_header. intros Hm Hkv.
  refine (mk_params_inv
            (fun k => Py.lower k = k /\ Py.mem "=" k = false /\
                      Py.mem NL k = false /\ Py.mem TAB k = false)
            (fun v => Py.mem "=" v = false /\ Py.mem NL v = false /\
                      Py.mem TAB v = false)
            _ _ ∅ m _ Hm k v Hkv).
  - intros l k0 v0 Hin Hk0 Hv0.
    destruct (header_line_facts text l Hin) as (_ & _ & Hnl & Htab).
    pose proof (split_pieces_no_sep "=" l) as Heq.
    pose proof (split_pieces_mem_false NL "=" l Hnl) as Hnls.
    pose proof (split_pieces_mem_false TAB "=" l Htab) as Htabs.
    rewrite Forall_lookup in Heq, Hnls, Htabs.
    split; [split; [apply lower_idem | repeat split] | repeat split];
      first [ apply mem_lower_false; [reflexivity |] | idtac ];
      eauto.
  - intros k0 v0 H. rewrite lookup_empty in H. discriminate H.
Qed.

(** X3. Every key of the parsed mapping is in lower case, and neither a key
    nor a value holds an equals sign, a newline or a tab. *)
Theorem parse_header_entries_clean (text : string) (m : gmap string string)
    (k v : string) :
  parse_header text = Ok m ->
  m !! k = Some v ->
  (Py.lower k = k /\
   Py.mem "=" k = false /\ Py.mem NL k = false /\ Py.mem TAB k = false) /\
  (Py.mem "=" v = false /\ Py.mem NL v = false /\ Py.mem TAB v = false).
Proof. intros Hm Hkv. now apply parse_header_entry_facts with (text := text) (m := m). Qed.

(** X3 at the product field of the sample header. *)
Lemma parse_header_entries_clean_sample :
  (Py.lower "input_shortname" = "input_shortname" /\
   Py.mem "=" "input_shortname" = false /\
   Py.mem NL "input_shortname" = false /\
   Py.mem TAB "input_shortname" = false) /\
  (Py.mem "=" "MOD13Q1" = false /\ Py.mem NL "MOD13Q1" = false /\
   Py.mem TAB "MOD13Q1" = false).
Proof.
  apply (parse_header_entries_clean header_mod13q1 params_mod13q1);
    vm_compute; reflexivity.
Defined.

(** ** More on the configuration assembly *)

Lemma assemble_conf_inv (params : gmap string string)
    (inp_fp out_fp band : string) (conf : odict) :
  assemble_conf params inp_fp out_fp band = Ok conf ->
  exists ul lr names product,
    params !! "grid_ul_corner_latlon" = Some ul /\
    params !! "grid_lr_corner_latlon" = Some lr /\
    params !! "grid_names" = Some names /\
    params !! "input_shortname" = Some product.
Proof.
  unfold assemble_conf, getitem. intros H.
  destruct (params !! "grid_ul_corner_latlon") as [ul|]; [| discriminate H].
  destruct (params !! "grid_lr_corner_latlon") as [lr|]; [| discriminate H].
  destruct (params !! "grid_names") as [names|]; [| discriminate H].
  destruct (params !! "input_shortname") as [product|]; [| discriminate H].
  now exists ul, lr, names, product.
Qed.

(** X4. The assembly succeeds exactly when the header mapping holds the two
    grid corners, the grid names and the product; otherwise it raises
    [KeyError] for the first of them, in that order, that is missing. *)
Theorem assemble_conf_key_error (params : gmap string string)
    (inp_fp out_fp band : string) :
  ((exists conf, assemble_conf params inp_fp out_fp band = Ok conf) <->
   is_Some (params !! "grid_ul_corner_latlon") /\
   is_Some (params !! "grid_lr_corner_latlon") /\
   is_Some (params !! "grid_names") /\
   is_Some (params !! "input_shortname")) /\
  (params !! "grid_ul_corner_latlon" = None ->
   assemble_conf params inp_fp out_fp band
   = Raise (KeyError "grid_ul_corner_latlon")) /\
  (is_Some (params !! "grid_ul_corner_latlon") ->
   params !! "grid_lr_corner_latlon" = None ->
   assemble_conf params inp_fp out_fp band
   = Raise (KeyError "grid_lr_corner_latlon")) /\
  (is_Some (params !! "grid_ul_corner_latlon") ->
   is_Some (params !! "grid_lr_corner_latlon") ->
   params !! "grid_names" = None ->
   assemble_conf params inp_fp out_fp band = Raise (KeyError "grid_names")) /\
  (is_Some (params !! "grid_ul_corner_latlon") ->
   is_Some (params !! "grid_lr_corner_latlon") ->
   is_Some (params !! "grid_names") ->
   params !! "input_shortname" = None ->
   assemble_conf params inp_fp out_fp band
   = Raise (KeyError "input_shortname")).
Proof.
  split; [split |].
  - intros [conf Hconf].
    destruct (assemble_conf_inv _ _ _ _ _ Hconf)
      as (ul & lr & names & product & -> & -> & -> & ->).
    repeat split; eauto.
  - intros ([ul Hul] & [lr Hlr] & [names Hnames] & [product Hprod]).
    eexists. eapply assemble_conf_ok; eassumption.
  - unfold assemble_conf, getitem.
    split; [intros -> ; reflexivity |].
    split; [intros [ul ->] ->; reflexivity |].
    split; [intros [ul ->] [lr ->] ->; reflexivity |].
    intros [ul ->] [lr ->] [names ->] ->; reflexivity.
Qed.

(** X4 on the sample header with the grid names taken out, and on the empty
    mapping. *)
Lemma assemble_conf_key_error_sample :
  assemble_conf (delete "grid_names" params_mod13q1) "scene.hdf" "scene.tif" "evi"
  = Raise (KeyError "grid_names") /\
  assemble_conf ∅ "scene.hdf" "scene.tif" "evi"
  = Raise (KeyError "grid_ul_corner_latlon").
Proof.
  split.
  - apply (assemble_conf_key_error (delete "grid_names" params_mod13q1));
      first [ vm_compute; reflexivity | vm_compute; eexists; reflexivity ].
  - apply (assemble_conf_key_error ∅). vm_compute. reflexivity.
Defined.

(** ** The band table *)

Lemma bands_lookup (product : string) (table : gmap string string) :
  BANDS !! product = Some table ->
  (product = "MOD13Q1" \/ product = "MYD13Q1") /\
  BANDS !! "MOD13Q1" = Some table.
Proof.
  unfold BANDS. cbn [list_to_map foldr uncurry fst snd]. intros H.
  apply lookup_insert_Some in H as [[<- <-] | [_ H]].
  - split; [now left | now rewrite lookup_insert_eq].
  - apply lookup_insert_Some in H as [[<- <-] | [_ H]].
    + split; [now right | now rewrite lookup_insert_eq].
    + rewrite lookup_empty in H. discriminate H.
Qed.

Lemma table_entry_cases (product band field : string) :
  table_entry product band = Some field ->
  In field
    [ "250m 16 days NDVI"; "250m 16 days EVI"; "250m 16 days VI Quality";
      "250m 16 days red reflectance"; "250m 16 days NIR reflectance";
      "250m 16 days blue reflectance"; "250m 16 days MIR reflectance";
      "250m 16 days composite day of the year";
      "250m 16 days pixel reliability" ].
Proof.
  unfold table_entry. destruct (BANDS !! product) as [table|] eqn:E;
    [| discriminate]. simpl. intros H.
  apply bands_lookup in E as [_ E].
  unfold BANDS in E. cbn [list_to_map foldr uncurry fst snd] in E.
  rewrite lookup_insert_eq in E. inversion E; subst table; clear E.
  repeat (apply lookup_insert_Some in H as [[_ <-] | [_ H]]; [simpl; tauto |]).
  rewrite lookup_empty in H. discriminate H.
Qed.

(** ** The configuration written for a parsed header *)

Lemma mk_conf_str_entry_lines (conf : odict) :
  conf <> [] ->
  Forall (fun kv => no_newline (fst kv) /\ no_newline (snd kv)) conf ->
  text_lines (mk_conf_str conf)
  = [""; "NUM_RUNS = 1"; ""; "BEGIN"] ++ List.map conf_entry conf ++ ["END"; ""].
Proof.
  intros Hne Hall.
  assert (Hent : Forall (fun p => Py.mem NL p = false) (List.map conf_entry conf)).
  { clear Hne. induction Hall as [|kv rest [Hk Hv] _ IH]; simpl; constructor;
      [now apply conf_entry_no_newline | exact IH]. }
  unfold text_lines. rewrite (mk_conf_str_unfold conf _ eq_refl).
  do 4 (rewrite split_append_sep by reflexivity).
  rewrite split_join_append; [| now destruct conf | exact Hent].
  rewrite split_append_sep by reflexivity. reflexivity.
Qed.

Lemma mem_without_char_false (d c : ascii) (s : string) :
  Py.mem d s = false -> Py.mem d (without_char c s) = false.
Proof.
  induction s as [|x s IH]; [reflexivity |]. cbn [Py.mem without_char].
  intros H. apply orb_false_iff in H as [Hx Hs].
  destruct (Ascii.eqb x c); [now apply IH |].
  cbn [Py.mem]. now rewrite Hx, IH.
Qed.

Lemma field_name_of_no_newline (product band : string) :
  no_newline band -> no_newline (field_name_of product band).
Proof.
  intros Hband. rewrite field_name_of_entry.
  destruct (table_entry product band) as [field|] eqn:E; [| exact Hband].
  apply table_entry_cases in E. simpl in E. unfold no_newline.
  repeat (destruct E as [<- | E]; [reflexivity |]). contradiction.
Qed.

(** X5. For a header the parser accepts and a configuration assembled from
    it, with an input path, an output path and a band alias that hold no
    newline, the text written for the conversion tool has exactly the
    twelve lines [KEY = value] of the configuration between its [BEGIN] and
    [END] lines: no value taken from the header can break a line. *)
Theorem conf_text_of_parsed_header (text inp_fp out_fp band : string)
    (params : gmap string string) (conf : odict) :
  parse_header text = Ok params ->
  assemble_conf params inp_fp out_fp band = Ok conf ->
  no_newline inp_fp -> no_newline out_fp -> no_newline band ->
  text_lines (mk_conf_str conf)
  = [""; "NUM_RUNS = 1"; ""; "BEGIN"] ++ List.map conf_entry conf ++ ["END"; ""]
  /\ length (List.map conf_entry conf) = 12.
Proof.
  intros Hparse Hconf Hinp Hout Hband.
  destruct (assemble_conf_inv _ _ _ _ _ Hconf)
    as (ul & lr & names & product & Hul & Hlr & Hnames & Hprod).
  rewrite (assemble_conf_ok _ inp_fp out_fp band _ _ _ _ Hul Hlr Hnames Hprod)
    in Hconf.
  inversion Hconf; subst conf; clear Hconf.
  destruct (parse_header_entry_facts _ _ _ _ Hparse Hul) as (_ & _ & Hul' & _).
  destruct (parse_header_entry_facts _ _ _ _ Hparse Hlr) as (_ & _ & Hlr' & _).
  destruct (parse_header_entry_facts _ _ _ _ Hparse Hnames) as (_ & _ & Hn' & _).
  split; [| reflexivity].
  apply mk_conf_str_entry_lines; [discriminate |].
  pose proof (field_name_of_no_newline product band Hband) as Hfield.
  unfold no_newline in *.
  repeat (constructor; [cbn [fst snd]; split |]);
    try reflexivity; try assumption.
  - rewrite (replace_char_empty ","), mem_append.
    now rewrite mem_without_char_false.
  - now rewrite !mem_append, Hul'.
  - now rewrite !mem_append, Hlr'.
  - constructor.
Qed.

(** X5 at the sample header. *)
Lemma conf_text_of_parsed_header_sample :
  exists conf,
    assemble_conf params_mod13q1 "scene.hdf" "scene.tif" "evi" = Ok conf /\
    text_lines (mk_conf_str conf)
    = [""; "NUM_RUNS = 1"; ""; "BEGIN"] ++ List.map conf_entry conf
        ++ ["END"; ""] /\
    length (List.map conf_entry conf) = 12.
Proof.
  eexists. split; [vm_compute; reflexivity |].
  apply (conf_text_of_parsed_header header_mod13q1 "scene.hdf" "scene.tif" "evi"
           params_mod13q1);
    vm_compute; reflexivity.
Defined.

(** ** The default output path, again *)

Lemma append_cancel_l (a b c : string) : a +:+ b = a +:+ c -> b = c.
Proof.
  induction a as [|x a IH]; str_simpl; intros H; [exact H |].
  inversion H. now apply IH.
Qed.

(** X6. The default output path always ends with [.tif] and is never the
    input path itself, so the conversion cannot write over its input. *)
Theorem default_out_fp_fresh (inp : string) :
  Py.last_chars 4 (default_out_fp inp) = ".tif" /\
  default_out_fp inp <> inp.
Proof.
  unfold default_out_fp.
  destruct (String.eqb (Py.lower (Py.last_chars 4 inp)) ".hdf") eqn:E;
    cbn [negb]; (split; [apply (last_chars_append _ ".tif") |]).
  - apply String.eqb_eq in E. intros H.
    unfold Py.but_last_chars in H.
    assert (H' : Py.take (String.length inp - 4) inp +:+ ".tif"
                 = Py.take (String.length inp - 4) inp
                     +:+ Py.drop (String.length inp - 4) inp)
      by (now rewrite take_drop).
    clear H. rename H' into H. apply append_cancel_l in H.
    unfold Py.last_chars in E. rewrite <- H in E. vm_compute in E.
    discriminate E.
  - intros H. apply (f_equal String.length) in H.
    rewrite length_append in H. simpl in H. lia.
Qed.

(** ** The pipeline, branch by branch *)

















